(** * Static evaluation of SmallfishNPS ([src/evaluate.cpp])

    A shallow embedding of the evaluation entry points [Eval::evaluate] and
    [Eval::trace], of [Evaluation<T>::value], of the [Trace] namespace (score
    table, [add], [to_cp], the two stream operators) and of the rook threat
    table, followed by the properties established about them.

    [evaluate.cpp] includes [types.h], [position.h], [thread.h] and
    [bitboard.h], none of which is part of the sources at hand.  What the file
    takes from them is gathered in the class [Externals] below, so that every
    result holds for any board representation, any tempo value and either
    build mode. *)

From stdpp Require Import base list gmap strings pretty.
From Stdlib Require Import ZArith QArith Lia.

Close Scope Q_scope.

(** ** Types of [types.h] *)

(** [Value] is an integer enumeration; the spec calls it an integer. *)
Abbreviation Value := Z (only parsing).

(** [Bitboard] is a 64-bit set of squares, bit [s] standing for square [s]. *)
Abbreviation Bitboard := Z (only parsing).

(** Squares are numbered [SQ_A1 = 0] ... [SQ_H8 = 63], file fastest. *)
Abbreviation Square := nat (only parsing).

Inductive Color : Type := WHITE | BLACK.

Definition COLOR_NB : nat := 2.

Definition color_index (c : Color) : nat :=
  match c with WHITE => 0 | BLACK => 1 end.

(** [operator~] on colours. *)
Definition flip_color (c : Color) : Color :=
  match c with WHITE => BLACK | BLACK => WHITE end.

Inductive PieceType : Type := PAWN | KNIGHT | BISHOP | ROOK | QUEEN | KING.

Definition PIECE_TYPE_NB : nat := 8.

(** The enumerators' values: [PAWN = 1] ... [KING = 6]; [0] is
    [NO_PIECE_TYPE] (and [ALL_PIECES]).  The rows of [MobilityBonus]
    ([PieceType-2]: knight, bishop, rook, queen) and [KingAttackWeights]
    fix the order. *)
Definition piece_type_index (pt : PieceType) : nat :=
  match pt with
  | PAWN => 1 | KNIGHT => 2 | BISHOP => 3 | ROOK => 4 | QUEEN => 5 | KING => 6
  end.

(** A square's content; [None] is [NO_PIECE]. *)
Abbreviation Piece := (option (Color * PieceType)) (only parsing).

(** Modelled from the spec: [Score], declared in [types.h].  The spec has it
    as an (mg, eg) integer pair with addition, subtraction and negation,
    always built by an explicit constructor.  Only the subtraction is used
    by this file (in the report's last column). *)
Record Score : Type := make_score { mg_value : Value; eg_value : Value }.

Definition SCORE_ZERO : Score := make_score 0 0.

Definition score_sub (a b : Score) : Score :=
  make_score (mg_value a - mg_value b) (eg_value a - eg_value b).

#[global] Instance Color_eq_dec : EqDecision Color.
Proof. solve_decision. Defined.

#[global] Instance PieceType_eq_dec : EqDecision PieceType.
Proof. solve_decision. Defined.

#[global] Instance Score_eq_dec : EqDecision Score.
Proof. solve_decision. Defined.

(** ** What [evaluate.cpp] takes from the headers *)

Class Externals : Type := {
  (** [position.h]: the board snapshot and the accessors used here. *)
  Position : Type;
  checkers : Position -> Bitboard;
  nnue_output : Position -> Value;
  side_to_move : Position -> Color;
  this_thread : Position -> nat;
  piece_on : Position -> Square -> Piece;
  (** [thread.h]: whatever a [Thread] holds besides [contempt]. *)
  ThreadRest : Type;
  (** [types.h]: the tempo bonus and the endgame pawn value. *)
  Tempo : Value;
  PawnValueEg : Value;
  (** [<cassert>]: whether [assert] is compiled out. *)
  NDEBUG : bool;
  (** [double] and its stream output.  [show_double w x] is the text that
      [os << std::setw(w) << x] appends under the flags [trace] sets
      ([showpoint], [noshowpos], [fixed], [setprecision(2)]). *)
  Double : Type;
  double_of_Value : Value -> Double;
  double_div : Double -> Double -> Double;
  show_double : nat -> Double -> string
}.

(** ** Memory and the evaluation monad *)

Section memory.
Context `{Externals}.

(** A search thread; [trace] writes its [contempt]. *)
Record Thread : Type := mkThread { contempt : Score; thread_rest : ThreadRest }.

(** The mutable state reachable from this file: the table [Trace::scores]
    ([TERM_NB] rows of [COLOR_NB] scores) and the [Thread] objects, by
    address. *)
Record Memory : Type := mkMemory {
  scores : list (list Score);
  threads : gmap nat Thread
}.

(** A run either returns a value and the memory it leaves, or is aborted
    by a failed [assert]. *)
Inductive Outcome (A : Type) : Type :=
| Returned (a : A) (m : Memory)
| Aborted.

Definition M (A : Type) : Type := Memory -> Outcome A.
End memory.

Arguments Returned {_ _} a m.
Arguments Aborted {_ _}.

Section monad.
Context `{Externals}.

Definition ret {A} (a : A) : M A := fun m => Returned a m.

Definition bind {A B} (c : M A) (k : A -> M B) : M B :=
  fun m => match c m with
           | Returned a m' => k a m'
           | Aborted => Aborted
           end.

Definition get_scores : M (list (list Score)) :=
  fun m => Returned (scores m) m.

Definition put_scores (t : list (list Score)) : M unit :=
  fun m => Returned tt (mkMemory t (threads m)).

(** [p->contempt = s] for the thread at address [p]. *)
Definition store_contempt (p : nat) (s : Score) : M unit :=
  fun m => Returned tt
    (mkMemory (scores m)
              (alter (fun t => mkThread s (thread_rest t)) p (threads m))).

(** [assert(b)]: nothing under [NDEBUG], otherwise aborts when [b] is false. *)
Definition assert (b : bool) : M unit :=
  if NDEBUG then ret tt else if b then ret tt else fun _ => Aborted.
End monad.

(** What a run returned, if it was not aborted. *)
Definition returned_value `{Externals} {A} (o : Outcome A) : option A :=
  match o with Returned a _ => Some a | Aborted => None end.

Notation "x <- c ;; k" := (bind c (fun x => k))
(at level 100, c at next level, right associativity).
Notation "c ;;; k" := (bind c (fun _ => k))
(at level 100, right associativity).

(** ** Namespace [Trace] *)

Module Trace.

Inductive Tracing : Type := NO_TRACE | TRACE.

(** [enum Term]: the first 8 entries are reserved for [PieceType]. *)
Abbreviation Term := nat (only parsing).

Definition MATERIAL : Term := 8.
Definition IMBALANCE : Term := 9.
Definition MOBILITY : Term := 10.
Definition THREAT : Term := 11.
Definition PASSED : Term := 12.
Definition SPACE : Term := 13.
Definition WINNABLE : Term := 14.
Definition TOTAL : Term := 15.
Definition TERM_NB : nat := 16.

(** The cast [Term(pt)] of a piece type. *)
Definition Term_of (pt : PieceType) : Term := piece_type_index pt.

(** [scores[idx][c]]; an index outside the table is undefined behaviour in
    the source and reads as zero here. *)
Definition score_at (t : list (list Score)) (idx : Term) (c : Color) : Score :=
  default SCORE_ZERO (t !! idx ≫= (.!! color_index c)).

(** What [std::memset(scores, 0, sizeof(scores))] leaves: the all-zero
    pattern is [SCORE_ZERO] in every cell. *)
Definition zeroed_scores : list (list Score) :=
  replicate TERM_NB (replicate COLOR_NB SCORE_ZERO).

(** The line separator written as a backslash-n in the source. *)
Definition nl : string := String (Ascii.ascii_of_nat 10) EmptyString.

Section with_externals.
Context `{Externals}.

Definition to_cp (v : Value) : Double :=
  double_div (double_of_Value v) (double_of_Value PawnValueEg).

(** [add(int idx, Color c, Score s)]. *)
Definition add (idx : nat) (c : Color) (s : Score) : M unit :=
  t <- get_scores ;;
  put_scores (alter (<[color_index c := s]>) idx t).

(** [add(int idx, Score w, Score b = SCORE_ZERO)]. *)
Definition add_pair (idx : nat) (w b : Score) : M unit :=
  add idx WHITE w ;;; add idx BLACK b.

Definition memset_scores : M unit := put_scores zeroed_scores.

(** [operator<<(std::ostream&, Score)]. *)
Definition show_Score (s : Score) : string :=
  show_double 5 (to_cp (mg_value s)) +:+ " " +:+
  show_double 5 (to_cp (eg_value s)).

(** [operator<<(std::ostream&, Term)], reading the table [t]. *)
Definition show_Term (t : list (list Score)) (idx : Term) : string :=
  (if bool_decide (idx = MATERIAL \/ idx = IMBALANCE \/
                   idx = WINNABLE \/ idx = TOTAL)
   then " ----  ----" +:+ " | " +:+ " ----  ----"
   else show_Score (score_at t idx WHITE) +:+ " | " +:+
        show_Score (score_at t idx BLACK))
  +:+ " | " +:+
  show_Score (score_sub (score_at t idx WHITE) (score_at t idx BLACK))
  +:+ nl.

End with_externals.
End Trace.

(** ** The evaluation *)

Module Eval.
Import Trace.

Section with_externals.
Context `{Externals}.

(** [Evaluation<T>::value()]. *)
Definition value (T : Tracing) (pos : Position) : M Value :=
  assert (checkers pos =? 0)%Z ;;;
  let v := nnue_output pos in
  let v := Z.min v 30000 in
  ret ((match side_to_move pos with WHITE => v | BLACK => - v end) + Tempo)%Z.

(** [Eval::evaluate]. *)
Definition evaluate (pos : Position) : M Value := value NO_TRACE pos.

Definition in_check_message : string := "Total evaluation: none (in check)".

(** The text [trace] streams once the value [v] (White's point of view) is
    known, reading the table [t]. *)
Definition report (t : list (list Score)) (v : Value) : string :=
  "     Term    |    White    |    Black    |    Total   " +:+ nl +:+
  "             |   MG    EG  |   MG    EG  |   MG    EG " +:+ nl +:+
  " ------------+-------------+-------------+------------" +:+ nl +:+
  "    Material | " +:+ show_Term t MATERIAL +:+
  "   Imbalance | " +:+ show_Term t IMBALANCE +:+
  "       Pawns | " +:+ show_Term t (Term_of PAWN) +:+
  "     Knights | " +:+ show_Term t (Term_of KNIGHT) +:+
  "     Bishops | " +:+ show_Term t (Term_of BISHOP) +:+
  "       Rooks | " +:+ show_Term t (Term_of ROOK) +:+
  "      Queens | " +:+ show_Term t (Term_of QUEEN) +:+
  "    Mobility | " +:+ show_Term t MOBILITY +:+
  " King safety | " +:+ show_Term t (Term_of KING) +:+
  "     Threats | " +:+ show_Term t THREAT +:+
  "      Passed | " +:+ show_Term t PASSED +:+
  "       Space | " +:+ show_Term t SPACE +:+
  "    Winnable | " +:+ show_Term t WINNABLE +:+
  " ------------+-------------+-------------+------------" +:+ nl +:+
  "       Total | " +:+ show_Term t TOTAL +:+
  nl +:+ "Final evaluation: " +:+ show_double 0 (to_cp v) +:+
  " (white side)" +:+ nl.

(** The body of [Eval::trace], with the call
    [Evaluation<TRACE>(pos).value()] left open: [evaluator] stands for it.
    An evaluator that reads or writes the memory sees where in the body it
    is called. *)
Definition trace_calling (evaluator : Position -> M Value) (pos : Position)
  : M string :=
  if negb (checkers pos =? 0)%Z then ret in_check_message
  else
    memset_scores ;;;
    store_contempt (this_thread pos) SCORE_ZERO ;;;
    v <- evaluator pos ;;
    let v := match side_to_move pos with WHITE => v | BLACK => (- v)%Z end in
    t <- get_scores ;;
    ret (report t v).

(** [Eval::trace]. *)
Definition trace (pos : Position) : M string :=
  trace_calling (value TRACE) pos.

(** The memory [trace] leaves behind on a position not in check: the table
    zeroed, the contempt of the position's thread reset, all else as in [m]. *)
Definition traced_memory (pos : Position) (m : Memory) : Memory :=
  mkMemory zeroed_scores
           (alter (fun t => mkThread SCORE_ZERO (thread_rest t))
                  (this_thread pos) (threads m)).

End with_externals.
End Eval.

(** ** The rook threat table of the anonymous namespace *)

Module Tables.

(** The macro [S(mg, eg)]. *)
Abbreviation S := make_score (only parsing).

(** [ThreatByRook[attacked PieceType]]: an array of [PIECE_TYPE_NB] scores
    with six initialisers; the remaining entries are zero. *)
Definition ThreatByRook : list Score :=
  [S 0 0; S 3 46; S 37 68; S 42 60; S 0 38; S 58 41]
  ++ replicate (PIECE_TYPE_NB - 6) SCORE_ZERO.

(** [table[pt]]. *)
Definition entry (table : list Score) (pt : PieceType) : Score :=
  default SCORE_ZERO (table !! piece_type_index pt).

End Tables.

(** ** Boards, attacks and mirroring

    The attack sets of [bitboard.h] and the mirroring of [position.h] are not
    at hand.  The spec asks of the board collaborator the per-square piece
    identity and "a function computing a piece's attack bitboard from a given
    square and occupancy"; the geometry below is that of the game.  It serves
    to describe positions (a queen that hangs, a mirrored board, a king in
    check); nothing in [evaluate.cpp] calls it. *)

Module Board.

Abbreviation Board := (Square -> Piece) (only parsing).

Definition file_of (s : Square) : Z := (Z.of_nat s mod 8)%Z.
Definition rank_of (s : Square) : Z := (Z.of_nat s / 8)%Z.

Definition on_board (f r : Z) : bool :=
  ((0 <=? f) && (f <? 8) && (0 <=? r) && (r <? 8))%Z.

Definition make_square (f r : Z) : Square := Z.to_nat (r * 8 + f).

Definition SQUARES : list Square := seq 0 64.

(** Whether the ray leaving ([f], [r]) in direction ([df], [dr]) reaches
    [target] before leaving the board or passing an occupied square. *)
Fixpoint ray_hits (b : Board) (fuel : nat) (f r df dr : Z) (target : Square)
  : bool :=
  match fuel with
  | O => false
  | S fuel' =>
      let f' := (f + df)%Z in
      let r' := (r + dr)%Z in
      on_board f' r' &&
      (bool_decide (make_square f' r' = target)
       || match b (make_square f' r') with
          | None => ray_hits b fuel' f' r' df dr target
          | Some _ => false
          end)
  end.

Definition slides (b : Board) (dirs : list (Z * Z)) (from to : Square) : bool :=
  existsb (fun d => ray_hits b 7 (file_of from) (rank_of from) d.1 d.2 to) dirs.

Definition leaps (jumps : list (Z * Z)) (from to : Square) : bool :=
  existsb (fun d =>
             let f := (file_of from + d.1)%Z in
             let r := (rank_of from + d.2)%Z in
             on_board f r && bool_decide (make_square f r = to)) jumps.

Definition rook_dirs : list (Z * Z) := [(1, 0); (-1, 0); (0, 1); (0, -1)]%Z.
Definition bishop_dirs : list (Z * Z) := [(1, 1); (1, -1); (-1, 1); (-1, -1)]%Z.
Definition knight_jumps : list (Z * Z) :=
  [(1, 2); (2, 1); (2, -1); (1, -2); (-1, -2); (-2, -1); (-2, 1); (-1, 2)]%Z.
Definition pawn_captures (c : Color) : list (Z * Z) :=
  match c with
  | WHITE => [(1, 1); (-1, 1)]%Z
  | BLACK => [(1, -1); (-1, -1)]%Z
  end.

(** Modelled from the spec: the attack sets of [bitboard.h].  Whether a
    piece of colour [c] and type [pt] standing on [from] attacks [to] on the
    board [b]. *)
Definition attacks (b : Board) (c : Color) (pt : PieceType) (from to : Square)
  : bool :=
  match pt with
  | PAWN => leaps (pawn_captures c) from to
  | KNIGHT => leaps knight_jumps from to
  | BISHOP => slides b bishop_dirs from to
  | ROOK => slides b rook_dirs from to
  | QUEEN => slides b (rook_dirs ++ bishop_dirs) from to
  | KING => leaps (rook_dirs ++ bishop_dirs) from to
  end.

(** The squares from which a piece of colour [c] attacks [to]. *)
Definition attackers_to (b : Board) (c : Color) (to : Square) : list Square :=
  List.filter (fun from =>
                 match b from with
                 | Some (c', pt) => bool_decide (c' = c) && attacks b c pt from to
                 | None => false
                 end) SQUARES.

Definition attacked_by (b : Board) (c : Color) (to : Square) : bool :=
  bool_decide (attackers_to b c to <> []).

(** The bitboard with exactly the squares of [l]. *)
Definition bitboard_of (l : list Square) : Bitboard :=
  foldr (fun s bb => Z.lor (Z.shiftl 1 (Z.of_nat s)) bb) 0%Z l.

(** Modelled from the spec: the in-check status of [position.h], as the
    bitboard of the pieces giving check to the king of [c]. *)
Definition checkers_of (b : Board) (c : Color) : Bitboard :=
  bitboard_of
    (concat (map (fun k => match b k with
                           | Some (c', KING) =>
                               if decide (c' = c)
                               then attackers_to b (flip_color c) k else []
                           | _ => []
                           end) SQUARES)).

(** Modelled from the spec: the hanging-queen scenario.  A queen of the
    opponent of [Us] that no piece of its own side defends is attacked by a
    rook of [Us]. *)
Definition hanging_queen_attacked_by_rook (b : Board) (Us : Color) : bool :=
  existsb (fun q =>
    bool_decide (b q = Some (flip_color Us, QUEEN))
    && negb (attacked_by b (flip_color Us) q)
    && existsb (fun r => bool_decide (b r = Some (Us, ROOK))
                         && attacks b Us ROOK r q) SQUARES) SQUARES.

(** [flip_rank]: [s ^ SQ_A8]. *)
Definition flip_rank (s : Square) : Square := Nat.lxor s 56.

Definition flip_piece (pc : Piece) : Piece :=
  match pc with
  | Some (c, pt) => Some (flip_color c, pt)
  | None => None
  end.

(** Modelled from the spec: [b'] is the colour-and-rank mirror of [b]. *)
Definition mirrored (b b' : Board) : Prop :=
  forall s, s < 64 -> b' s = flip_piece (b (flip_rank s)).

Definition mirroredb (b b' : Board) : bool :=
  forallb (fun s => bool_decide (b' s = flip_piece (b (flip_rank s)))) SQUARES.

End Board.

(** ** A concrete board representation

    An instance of [Externals] on which the general results are exercised:
    positions are finite maps from squares to pieces, [checkers] is computed
    from the board, and doubles are rationals printed with two decimals. *)

Module Example.

Record BoardPosition : Type := mkBoardPosition {
  bp_pieces : gmap nat (Color * PieceType);
  bp_side_to_move : Color;
  bp_nnue_output : Value;
  bp_this_thread : nat
}.

Definition bp_piece_on (p : BoardPosition) (s : Square) : Piece :=
  bp_pieces p !! s.

Definition bp_checkers (p : BoardPosition) : Bitboard :=
  Board.checkers_of (bp_piece_on p) (bp_side_to_move p).

Definition digit (d : Z) : string := pretty (d mod 10)%Z.

(** [x] in fixed notation with two decimals, right-aligned in [w] columns:
    hundredths rounded to nearest, ties to even, and the sign of a negative
    number kept also when it rounds to zero. *)
Definition show_fixed2 (w : nat) (x : Q) : string :=
  let den := Z.pos (Qden x) in
  let n := (100 * Z.abs (Qnum x))%Z in
  let q := (n / den)%Z in
  let r := (n mod den)%Z in
  let h := (if (2 * r <? den)%Z then q
            else if (den <? 2 * r)%Z then q + 1
            else if Z.even q then q else q + 1)%Z in
  let text :=
    (if bool_decide (Qnum x < 0)%Z then "-" else "")
    +:+ pretty (h / 100)%Z +:+ "." +:+ digit (h / 10) +:+ digit h in
  String.concat "" (replicate (w - String.length text) " ") +:+ text.

Definition board_externals (tempo pawn_value_eg : Value) (ndebug : bool)
  : Externals :=
  {| Position := BoardPosition;
     checkers := bp_checkers;
     nnue_output := bp_nnue_output;
     side_to_move := bp_side_to_move;
     this_thread := bp_this_thread;
     piece_on := bp_piece_on;
     ThreadRest := Z;
     Tempo := tempo;
     PawnValueEg := pawn_value_eg;
     NDEBUG := ndebug;
     Double := Q;
     double_of_Value := inject_Z;
     double_div := Qdiv;
     show_double := show_fixed2 |}.

(** A build with assertions enabled, tempo 28 and an endgame pawn of 208. *)
Definition sample : Externals := board_externals 28 208 false.

(** White: Kg1, Ra1.  Black: Kh7, Qa8.  The rook attacks the queen along the
    open a-file and nothing defends her. *)
Definition hanging_queen_pieces : gmap nat (Color * PieceType) :=
  list_to_map [(0, (WHITE, ROOK)); (6, (WHITE, KING));
               (56, (BLACK, QUEEN)); (55, (BLACK, KING))].

(** Its mirror.  White: Kh2, Qa1.  Black: Kg8, Ra8. *)
Definition mirrored_pieces : gmap nat (Color * PieceType) :=
  list_to_map [(56, (BLACK, ROOK)); (62, (BLACK, KING));
               (0, (WHITE, QUEEN)); (15, (WHITE, KING))].

(** White: Kg1.  Black: Kh7, Qg8, giving check along the g-file. *)
Definition check_pieces : gmap nat (Color * PieceType) :=
  list_to_map [(6, (WHITE, KING)); (62, (BLACK, QUEEN)); (55, (BLACK, KING))].

Definition hanging_queen : BoardPosition :=
  mkBoardPosition hanging_queen_pieces WHITE 812 0.

Definition hanging_queen_mirror : BoardPosition :=
  mkBoardPosition mirrored_pieces WHITE (-812) 0.

(** The same two boards with a network output beyond 30000 in size. *)
Definition winning : BoardPosition :=
  mkBoardPosition hanging_queen_pieces WHITE 40000 0.

Definition winning_mirror : BoardPosition :=
  mkBoardPosition mirrored_pieces WHITE (-40000) 0.

(** White: Kg1.  Black: Kh7, Qa8.  A lone king against a queen, with a
    network output just below -30000. *)
Definition lone_king_pieces : gmap nat (Color * PieceType) :=
  list_to_map [(6, (WHITE, KING)); (56, (BLACK, QUEEN)); (55, (BLACK, KING))].

Definition losing : BoardPosition :=
  mkBoardPosition lone_king_pieces WHITE (-30001) 0.

(** The mirrored board with the network output and side to move of
    [hanging_queen], on another thread. *)
Definition same_output : BoardPosition :=
  mkBoardPosition mirrored_pieces WHITE 812 1.

Definition in_check : BoardPosition :=
  mkBoardPosition check_pieces WHITE (-2500) 1.

(** A memory with two threads and a table that an earlier run left dirty. *)
Definition dirty_scores : list (list Score) :=
  <[Trace.THREAT := [make_score 58 41; make_score 3 46]]> Trace.zeroed_scores.

Definition sample_memory : @Memory sample :=
  @mkMemory sample dirty_scores
    (<[0 := @mkThread sample (make_score 12 7) 1000%Z]>
       (<[1 := @mkThread sample (make_score (-4) 0) 2000%Z]> ∅)).

Definition clean_memory : @Memory sample :=
  @mkMemory sample Trace.zeroed_scores ∅.

End Example.

(** ** The shape of the score table and the safe-check weights *)

(** The table [Score scores[TERM_NB][COLOR_NB]] has [TERM_NB] rows of
    [COLOR_NB] cells; a list that stands for it has this shape. *)
Definition table_shaped (t : list (list Score)) : Prop :=
  length t = Trace.TERM_NB /\ Forall (fun row => length row = COLOR_NB) t.

Module Weights.

(** [SafeCheck[PieceType][single/multiple]]: six rows of two weights, the
    first two rows empty, that is, zero. *)
Definition SafeCheck : list (list Z) :=
  [[0; 0]; [0; 0]; [792; 1283]; [645; 967]; [1084; 1897]; [772; 1119]]%Z.

(** [SafeCheck[pt][k]]. *)
Definition safe_check (pt : PieceType) (k : nat) : option Z :=
  SafeCheck !! piece_type_index pt ≫= (.!! k).

End Weights.

(** ** Further positions on the concrete boards *)

Module Samples.
Import Example.

(** The build of [sample] with assertions compiled out. *)
Definition release : Externals := board_externals 28 208 true.

(** The hanging-queen board with Black to move. *)
Definition black_to_move : BoardPosition :=
  mkBoardPosition hanging_queen_pieces BLACK 812 0.

(** The hanging-queen board with a network output of exactly 30000. *)
Definition saturated : BoardPosition :=
  mkBoardPosition hanging_queen_pieces WHITE 30000 0.

(** The mirrored board with Black to move. *)
Definition mirror_black_to_move : BoardPosition :=
  mkBoardPosition mirrored_pieces BLACK (-812) 0.

(** An evaluator that looks at the memory it is called in: it returns the
    middlegame contempt of the position's thread and writes nothing. *)
Definition contempt_probe (pos : BoardPosition) : @M sample Z :=
  fun m => Returned
             (match threads m !! bp_this_thread pos with
              | Some t => mg_value (contempt t)
              | None => (-1)%Z
              end) m.

End Samples.

(** * Properties *)

Import Trace Eval.

(** ** The monad and the table *)

Section basic_facts.
Context `{Externals}.

Lemma assert_true (m : Memory) : assert true m = Returned tt m.
Proof. unfold assert. destruct NDEBUG; reflexivity. Qed.

Lemma assert_false_debug (m : Memory) :
  NDEBUG = false -> assert false m = Aborted.
Proof. intros Hd. unfold assert. rewrite Hd. reflexivity. Qed.

(** [assert] never touches the memory, whatever its argument. *)
Lemma assert_returns (b : bool) (m m' : Memory) (u : unit) :
  assert b m = Returned u m' -> m' = m.
Proof.
  unfold assert, ret. destruct NDEBUG, b; intros Hr; congruence.
Qed.

Lemma score_at_zeroed (idx : nat) (c : Color) :
  score_at zeroed_scores idx c = SCORE_ZERO.
Proof.
  unfold score_at, zeroed_scores.
  destruct (replicate TERM_NB (replicate COLOR_NB SCORE_ZERO) !! idx)
    as [row|] eqn:Hrow; simpl; [|reflexivity].
  apply lookup_replicate in Hrow as [-> _].
  destruct (replicate COLOR_NB SCORE_ZERO !! color_index c) as [s|] eqn:Hs;
    simpl; [|reflexivity].
  apply lookup_replicate in Hs as [-> _]. reflexivity.
Qed.

(** [add] does write: on a table that has the cell, the entry read back is
    the score stored, and the threads are left alone. *)
Lemma add_writes_entry (idx : nat) (c : Color) (s : Score) (m : Memory)
  (row : list Score) :
  scores m !! idx = Some row -> color_index c < length row ->
  exists m' : Memory,
    add idx c s m = Returned tt m'
    /\ score_at (scores m') idx c = s
    /\ threads m' = threads m.
Proof.
  intros Hrow Hlen. eexists. split; [reflexivity|]. split; [|reflexivity].
  unfold score_at. simpl.
  rewrite list_lookup_alter_eq, Hrow. simpl.
  rewrite list_lookup_insert_eq by exact Hlen. reflexivity.
Qed.

Lemma score_sub_zero : score_sub SCORE_ZERO SCORE_ZERO = SCORE_ZERO.
Proof. reflexivity. Qed.

(** A row of the report over the zeroed table. *)
Lemma show_Term_zeroed (idx : nat) :
  show_Term zeroed_scores idx =
  (if bool_decide (idx = MATERIAL \/ idx = IMBALANCE \/
                   idx = WINNABLE \/ idx = TOTAL)
   then " ----  ----" +:+ " | " +:+ " ----  ----"
   else show_Score SCORE_ZERO +:+ " | " +:+ show_Score SCORE_ZERO)
  +:+ " | " +:+ show_Score SCORE_ZERO +:+ nl.
Proof.
  unfold show_Term. rewrite !score_at_zeroed, score_sub_zero. reflexivity.
Qed.

End basic_facts.

(** ** [Evaluation<T>::value] *)

Section value_facts.
Context `{Externals}.

(** The value computed when the side to move is not in check. *)
Lemma value_not_in_check (T : Tracing) (pos : Position) (m : Memory) :
  checkers pos = 0%Z ->
  value T pos m =
  Returned ((match side_to_move pos with
             | WHITE => Z.min (nnue_output pos) 30000
             | BLACK => - Z.min (nnue_output pos) 30000
             end) + Tempo)%Z m.
Proof.
  intros Hc. unfold value, bind. rewrite Hc. simpl.
  rewrite assert_true. reflexivity.
Qed.

(** A build with assertions enabled stops on a position in check. *)
Lemma value_in_check_debug (T : Tracing) (pos : Position) (m : Memory) :
  NDEBUG = false -> checkers pos <> 0%Z -> value T pos m = Aborted.
Proof.
  intros Hd Hc. unfold value, bind.
  apply Z.eqb_neq in Hc. rewrite Hc, assert_false_debug by exact Hd.
  reflexivity.
Qed.

(** Whatever the position and the build, [value] leaves the memory as it
    found it: it calls neither [add] nor any other writer. *)
Lemma value_preserves_memory (T : Tracing) (pos : Position) (m m' : Memory)
  (x : Z) :
  value T pos m = Returned x m' -> m' = m.
Proof.
  unfold value, bind.
  destruct (assert (checkers pos =? 0)%Z m) as [u m1|] eqn:Ha; [|discriminate].
  apply assert_returns in Ha. subst m1. unfold ret. congruence.
Qed.

(** The returned value does not depend on the memory. *)
Lemma value_memory_independent (T : Tracing) (pos : Position) (m1 m2 : Memory) :
  returned_value (value T pos m1) = returned_value (value T pos m2).
Proof.
  unfold value, bind, assert, ret.
  destruct NDEBUG, (checkers pos =? 0)%Z; reflexivity.
Qed.

(** The clamp is one-sided: the White-relative value never exceeds 30000. *)
Lemma clamped_at_most_30000 (pos : Position) :
  (Z.min (nnue_output pos) 30000 <= 30000)%Z.
Proof. lia. Qed.

(** Within the bound nothing is changed by the clamp. *)
Lemma clamp_identity (pos : Position) :
  (nnue_output pos <= 30000)%Z ->
  Z.min (nnue_output pos) 30000 = nnue_output pos.
Proof. lia. Qed.

End value_facts.

(** ** [Eval::evaluate] *)

Section evaluate_facts.
Context `{Externals}.

(** C2: on a position whose side to move is not in check, [evaluate] returns
    the White-relative value [v] (the network output after [std::min] with
    30000) seen from the side to move, plus the tempo bonus:
    [(White to move ? v : -v) + Tempo]. *)
Theorem evaluate_reorients_and_adds_tempo (pos : Position) (m : Memory) :
  checkers pos = 0%Z ->
  let v := Z.min (nnue_output pos) 30000 in
  evaluate pos m =
  Returned ((match side_to_move pos with WHITE => v | BLACK => - v end)
            + Tempo)%Z m.
Proof. intros Hc v. unfold evaluate. apply value_not_in_check, Hc. Qed.

(** C8: "not in check" is all the numeric path asks for.  Under it the
    assertion at the head of [value] passes, and [evaluate] returns an
    integer (it is not aborted), in either build mode and from any memory. *)
Theorem evaluate_total_when_not_in_check (pos : Position) (m : Memory) :
  checkers pos = 0%Z ->
  assert (checkers pos =? 0)%Z m = Returned tt m
  /\ exists x : Z, evaluate pos m = Returned x m.
Proof.
  intros Hc. split.
  - rewrite Hc. simpl. apply assert_true.
  - eexists. unfold evaluate. apply value_not_in_check, Hc.
Qed.

(** C5: [evaluate] is a function of the position alone: two runs on the
    same position give the same outcome (the same integer, or both stop at
    the assertion), whatever the memory each run starts from. *)
Theorem evaluate_deterministic (pos : Position) (m1 m2 : Memory) :
  returned_value (evaluate pos m1) = returned_value (evaluate pos m2).
Proof. unfold evaluate. apply value_memory_independent. Qed.

(** C10: two positions, neither in check, with the same network output and
    the same side to move get the same integer from [evaluate]; the boards
    and the memories may differ in everything else. *)
Theorem evaluate_noninterference (pos1 pos2 : Position) (m1 m2 : Memory) :
  checkers pos1 = 0%Z -> checkers pos2 = 0%Z ->
  nnue_output pos1 = nnue_output pos2 ->
  side_to_move pos1 = side_to_move pos2 ->
  exists x : Z,
    evaluate pos1 m1 = Returned x m1 /\ evaluate pos2 m2 = Returned x m2.
Proof.
  intros Hc1 Hc2 Hn Hs. eexists. split.
  - unfold evaluate. apply value_not_in_check, Hc1.
  - unfold evaluate. rewrite (value_not_in_check _ _ _ Hc2), Hn, Hs.
    reflexivity.
Qed.

(** C1: the clamp has no lower side.  When the network output is below
    -30000 on a position not in check, the value [evaluate] returns, less
    the tempo bonus, is larger than 30000 in absolute value. *)
Theorem evaluate_exceeds_bound_below (pos : Position) (m : Memory) :
  checkers pos = 0%Z ->
  (nnue_output pos < -30000)%Z ->
  exists x : Z,
    evaluate pos m = Returned x m /\ (30000 < Z.abs (x - Tempo))%Z.
Proof.
  intros Hc Hn. eexists. split.
  - unfold evaluate. apply value_not_in_check, Hc.
  - destruct (side_to_move pos); lia.
Qed.

(** X14: above, the clamp works: less the tempo, White to move gets at most
    30000 and Black to move at least -30000. *)
Lemma evaluate_one_sided_bound (pos : Position) (m : Memory) :
  checkers pos = 0%Z ->
  exists x : Z,
    evaluate pos m = Returned x m
    /\ match side_to_move pos with
       | WHITE => (x - Tempo <= 30000)%Z
       | BLACK => (-30000 <= x - Tempo)%Z
       end.
Proof.
  intros Hc. eexists. split.
  - unfold evaluate. apply value_not_in_check, Hc.
  - destruct (side_to_move pos); lia.
Qed.

(** X15: with a network output of at least -30000 the value less the tempo
    is at most 30000 in absolute value. *)
Lemma evaluate_bounded_from (pos : Position) (m : Memory) :
  checkers pos = 0%Z ->
  (-30000 <= nnue_output pos)%Z ->
  exists x : Z,
    evaluate pos m = Returned x m /\ (Z.abs (x - Tempo) <= 30000)%Z.
Proof.
  intros Hc Hn. eexists. split.
  - unfold evaluate. apply value_not_in_check, Hc.
  - destruct (side_to_move pos); lia.
Qed.

(** [evaluate] writes nothing. *)
Lemma evaluate_preserves_memory (pos : Position) (m m' : Memory) (x : Z) :
  evaluate pos m = Returned x m' -> m' = m.
Proof. unfold evaluate. apply value_preserves_memory. Qed.

End evaluate_facts.

(** ** [Eval::trace] *)

Section trace_facts.
Context `{Externals}.

(** The two writes that precede the evaluation. *)
Lemma trace_prologue (pos : Position) (m : Memory) :
  (memset_scores ;;; store_contempt (this_thread pos) SCORE_ZERO) m
  = Returned tt (traced_memory pos m).
Proof. reflexivity. Qed.

(** The whole run on a position not in check. *)
Lemma trace_not_in_check (pos : Position) (m : Memory) :
  checkers pos = 0%Z ->
  trace pos m =
  Returned
    (report zeroed_scores
       (match side_to_move pos with
        | WHITE => Z.min (nnue_output pos) 30000 + Tempo
        | BLACK => - (- Z.min (nnue_output pos) 30000 + Tempo)
        end)%Z)
    (traced_memory pos m).
Proof.
  intros Hc. unfold trace, trace_calling. rewrite Hc. simpl.
  unfold bind at 1. unfold memset_scores at 1, put_scores at 1.
  unfold bind at 1. unfold store_contempt at 1.
  unfold bind at 1.
  rewrite (value_not_in_check TRACE pos _ Hc).
  unfold bind, get_scores, ret, traced_memory. simpl.
  destruct (side_to_move pos); reflexivity.
Qed.

(** The run with any evaluator in place of [value], on a position not in
    check: the evaluator is entered in the memory left by the two writes,
    and what it returns and leaves is all that follows. *)
Lemma trace_calling_not_in_check (evaluator : Position -> M Z)
  (pos : Position) (m : Memory) :
  checkers pos = 0%Z ->
  trace_calling evaluator pos m =
  match evaluator pos (traced_memory pos m) with
  | Returned v m1 =>
      Returned (report (scores m1)
                  (match side_to_move pos with WHITE => v | BLACK => - v end)%Z)
               m1
  | Aborted => Aborted
  end.
Proof.
  intros Hc. unfold trace_calling. rewrite Hc.
  change (0 =? 0)%Z with true. cbn [negb].
  unfold bind, memset_scores, put_scores, store_contempt, get_scores, ret,
    traced_memory.
  cbn [scores threads].
  destruct (evaluator pos _) as [v m1|]; reflexivity.
Qed.

(** The report over the zeroed table, written out. *)
Lemma report_zeroed_spelled (v : Z) :
  let cp := fun (w : nat) (x : Z) =>
    show_double w (double_div (double_of_Value x) (double_of_Value PawnValueEg)) in
  let zero := cp 5 0%Z +:+ " " +:+ cp 5 0%Z in
  let eol := String (Ascii.ascii_of_nat 10) EmptyString in
  let dashed :=
    (" ----  ----" +:+ " | " +:+ " ----  ----") +:+ " | " +:+ zero +:+ eol in
  let plain := (zero +:+ " | " +:+ zero) +:+ " | " +:+ zero +:+ eol in
  report zeroed_scores v =
      "     Term    |    White    |    Black    |    Total   " +:+ eol +:+
      "             |   MG    EG  |   MG    EG  |   MG    EG " +:+ eol +:+
      " ------------+-------------+-------------+------------" +:+ eol +:+
      "    Material | " +:+ dashed +:+
      "   Imbalance | " +:+ dashed +:+
      "       Pawns | " +:+ plain +:+
      "     Knights | " +:+ plain +:+
      "     Bishops | " +:+ plain +:+
      "       Rooks | " +:+ plain +:+
      "      Queens | " +:+ plain +:+
      "    Mobility | " +:+ plain +:+
      " King safety | " +:+ plain +:+
      "     Threats | " +:+ plain +:+
      "      Passed | " +:+ plain +:+
      "       Space | " +:+ plain +:+
      "    Winnable | " +:+ dashed +:+
      " ------------+-------------+-------------+------------" +:+ eol +:+
      "       Total | " +:+ dashed +:+
      eol +:+ "Final evaluation: " +:+ cp 0 v +:+ " (white side)" +:+ eol.
Proof.
  intros cp zero eol dashed plain. unfold report.
  rewrite !show_Term_zeroed. reflexivity.
Qed.

Lemma string_app_assoc (a b c : string) : (a +:+ b) +:+ c = a +:+ (b +:+ c).
Proof.
  induction a as [|x a IH]; [reflexivity|].
  change (String x ((a +:+ b) +:+ c) = String x (a +:+ (b +:+ c))).
  rewrite IH. reflexivity.
Qed.

(** Every report ends with the line of the final evaluation. *)
Lemma report_final_line (t : list (list Score)) (v : Z) :
  exists rows : string,
    report t v =
    rows +:+ nl +:+ "Final evaluation: " +:+ show_double 0 (to_cp v)
    +:+ " (white side)" +:+ nl.
Proof.
  exists
    ("     Term    |    White    |    Black    |    Total   " +:+ nl +:+
     "             |   MG    EG  |   MG    EG  |   MG    EG " +:+ nl +:+
     " ------------+-------------+-------------+------------" +:+ nl +:+
     "    Material | " +:+ show_Term t MATERIAL +:+
     "   Imbalance | " +:+ show_Term t IMBALANCE +:+
     "       Pawns | " +:+ show_Term t (Term_of PAWN) +:+
     "     Knights | " +:+ show_Term t (Term_of KNIGHT) +:+
     "     Bishops | " +:+ show_Term t (Term_of BISHOP) +:+
     "       Rooks | " +:+ show_Term t (Term_of ROOK) +:+
     "      Queens | " +:+ show_Term t (Term_of QUEEN) +:+
     "    Mobility | " +:+ show_Term t MOBILITY +:+
     " King safety | " +:+ show_Term t (Term_of KING) +:+
     "     Threats | " +:+ show_Term t THREAT +:+
     "      Passed | " +:+ show_Term t PASSED +:+
     "       Space | " +:+ show_Term t SPACE +:+
     "    Winnable | " +:+ show_Term t WINNABLE +:+
     " ------------+-------------+-------------+------------" +:+ nl +:+
     "       Total | " +:+ show_Term t TOTAL).
  unfold report. rewrite !string_app_assoc. reflexivity.
Qed.

(** C3: on a position whose side to move is in check, [trace] returns the
    literal text and leaves the memory untouched: the score table is not
    cleared, no thread's contempt is reset, nothing is evaluated. *)
Theorem trace_in_check_returns_literal (pos : Position) (m : Memory) :
  checkers pos <> 0%Z ->
  trace pos m = Returned "Total evaluation: none (in check)" m.
Proof.
  intros Hc. unfold trace, trace_calling. apply Z.eqb_neq in Hc.
  rewrite Hc. reflexivity.
Qed.

(** C4: after [trace] on a position not in check every entry of the score
    table is zero, for every term and both colours, and the text returned is
    the report with zero in every term row: material, imbalance, winnable
    and total show dashes for the two sides and the zero score as their
    total, every other term shows the zero score three times; the last line
    carries the value seen from White.  [value], the network path, leaves
    the table as it finds it. *)
Theorem trace_reports_zero_terms (pos : Position) (m : Memory) :
  checkers pos = 0%Z ->
  let cp := fun (w : nat) (x : Z) =>
    show_double w (double_div (double_of_Value x) (double_of_Value PawnValueEg)) in
  let zero := cp 5 0%Z +:+ " " +:+ cp 5 0%Z in
  let eol := String (Ascii.ascii_of_nat 10) EmptyString in
  let dashed :=
    (" ----  ----" +:+ " | " +:+ " ----  ----") +:+ " | " +:+ zero +:+ eol in
  let plain := (zero +:+ " | " +:+ zero) +:+ " | " +:+ zero +:+ eol in
  let v :=
    (match side_to_move pos with
     | WHITE => Z.min (nnue_output pos) 30000 + Tempo
     | BLACK => - (- Z.min (nnue_output pos) 30000 + Tempo)
     end)%Z in
  exists (text : string) (m' : Memory),
    trace pos m = Returned text m'
    /\ scores m' = zeroed_scores
    /\ (forall idx c, score_at (scores m') idx c = SCORE_ZERO)
    /\ text =
      "     Term    |    White    |    Black    |    Total   " +:+ eol +:+
      "             |   MG    EG  |   MG    EG  |   MG    EG " +:+ eol +:+
      " ------------+-------------+-------------+------------" +:+ eol +:+
      "    Material | " +:+ dashed +:+
      "   Imbalance | " +:+ dashed +:+
      "       Pawns | " +:+ plain +:+
      "     Knights | " +:+ plain +:+
      "     Bishops | " +:+ plain +:+
      "       Rooks | " +:+ plain +:+
      "      Queens | " +:+ plain +:+
      "    Mobility | " +:+ plain +:+
      " King safety | " +:+ plain +:+
      "     Threats | " +:+ plain +:+
      "      Passed | " +:+ plain +:+
      "       Space | " +:+ plain +:+
      "    Winnable | " +:+ dashed +:+
      " ------------+-------------+-------------+------------" +:+ eol +:+
      "       Total | " +:+ dashed +:+
      eol +:+ "Final evaluation: " +:+ cp 0 v +:+ " (white side)" +:+ eol
    /\ text = report zeroed_scores v
    /\ (forall idx,
          show_Term (scores m') idx =
          (if bool_decide (idx = MATERIAL \/ idx = IMBALANCE \/
                           idx = WINNABLE \/ idx = TOTAL)
           then " ----  ----" +:+ " | " +:+ " ----  ----"
           else show_Score SCORE_ZERO +:+ " | " +:+ show_Score SCORE_ZERO)
          +:+ " | " +:+ show_Score SCORE_ZERO +:+ nl)
    /\ (forall T m0 x m1,
          value T pos m0 = Returned x m1 -> scores m1 = scores m0).
Proof.
  intros Hc cp zero eol dashed plain v. do 2 eexists.
  split; [apply trace_not_in_check, Hc|].
  split; [reflexivity|].
  split; [intros idx c; apply score_at_zeroed|].
  split; [apply report_zeroed_spelled|].
  split; [reflexivity|].
  split; [intros idx; apply show_Term_zeroed|].
  intros T m0 x m1 Hv. apply value_preserves_memory in Hv. congruence.
Qed.

(** C7: [evaluate] returns with the memory it was given.  [trace], on a
    position not in check, clears its own score table, resets the contempt
    of the position's thread and then calls the evaluator: whatever is put
    in the place of [value] is entered in exactly the memory these two
    writes leave, and what it returns and leaves is what [trace] reports and
    leaves, so nothing is written between the reset and the evaluation nor
    after it.  Among the threads only the contempt of [this_thread pos] is
    written; every other thread and every other field is as before. *)
Theorem evaluate_and_trace_frame (pos : Position) (m : Memory) :
  checkers pos = 0%Z ->
  (exists x, evaluate pos m = Returned x m)
  /\ (forall x m', evaluate pos m = Returned x m' -> m' = m)
  /\ trace pos m = trace_calling (value TRACE) pos m
  /\ (forall evaluator : Position -> M Z,
        trace_calling evaluator pos m =
        match evaluator pos (traced_memory pos m) with
        | Returned v m1 =>
            Returned
              (report (scores m1)
                 (match side_to_move pos with WHITE => v | BLACK => - v end)%Z)
              m1
        | Aborted => Aborted
        end)
  /\ (memset_scores ;;; store_contempt (this_thread pos) SCORE_ZERO) m
     = Returned tt (traced_memory pos m)
  /\ (exists x, value TRACE pos (traced_memory pos m)
                = Returned x (traced_memory pos m))
  /\ (exists text, trace pos m = Returned text (traced_memory pos m))
  /\ scores (traced_memory pos m) = zeroed_scores
  /\ (forall p, p <> this_thread pos ->
        threads (traced_memory pos m) !! p = threads m !! p)
  /\ threads (traced_memory pos m) !! this_thread pos
     = (fun t => mkThread SCORE_ZERO (thread_rest t))
         <$> threads m !! this_thread pos.
Proof.
  intros Hc.
  split; [eexists; unfold evaluate; apply value_not_in_check, Hc|].
  split; [intros x m'; apply evaluate_preserves_memory|].
  split; [reflexivity|].
  split; [intros evaluator; apply trace_calling_not_in_check, Hc|].
  split; [apply trace_prologue|].
  split; [eexists; apply value_not_in_check, Hc|].
  split; [eexists; apply trace_not_in_check, Hc|].
  split; [reflexivity|].
  split.
  - intros p Hp. unfold traced_memory. simpl.
    apply lookup_alter_ne. congruence.
  - unfold traced_memory. simpl. apply lookup_alter_eq.
Qed.


End trace_facts.

(** ** Mirrored positions *)

Section mirror_facts.
Context `{Externals}.

Lemma mirroredb_sound (b b' : nat -> option (Color * PieceType)) :
  Board.mirroredb b b' = true -> Board.mirrored b b'.
Proof.
  unfold Board.mirroredb, Board.mirrored, Board.SQUARES.
  intros Hall s Hs. rewrite forallb_forall in Hall.
  specialize (Hall s). rewrite bool_decide_eq_true in Hall.
  apply Hall, in_seq. lia.
Qed.

(** X19: within the clamp and with the same side to move, mirrored positions
    get opposite values once the tempo is taken off. *)
Lemma mirror_symmetry_within_clamp (pos pos' : Position) (m m' : Memory) :
  checkers pos = 0%Z -> checkers pos' = 0%Z ->
  side_to_move pos' = side_to_move pos ->
  nnue_output pos' = (- nnue_output pos)%Z ->
  (-30000 <= nnue_output pos <= 30000)%Z ->
  exists x x' : Z,
    evaluate pos m = Returned x m /\ evaluate pos' m' = Returned x' m'
    /\ (x' - Tempo = - (x - Tempo))%Z.
Proof.
  intros Hc Hc' Hs Hn Hb. do 2 eexists.
  split; [unfold evaluate; apply value_not_in_check, Hc|].
  split; [unfold evaluate; apply value_not_in_check, Hc'|].
  rewrite Hs, Hn. destruct (side_to_move pos); lia.
Qed.

(** X20: with the side to move exchanged as well, they get the same value. *)
Lemma mirror_symmetry_side_exchanged (pos pos' : Position) (m m' : Memory) :
  checkers pos = 0%Z -> checkers pos' = 0%Z ->
  side_to_move pos' = flip_color (side_to_move pos) ->
  nnue_output pos' = (- nnue_output pos)%Z ->
  (-30000 <= nnue_output pos <= 30000)%Z ->
  exists x : Z,
    evaluate pos m = Returned x m /\ evaluate pos' m' = Returned x m'.
Proof.
  intros Hc Hc' Hs Hn Hb. eexists.
  split; [unfold evaluate; apply value_not_in_check, Hc|].
  unfold evaluate. rewrite (value_not_in_check _ _ _ Hc'), Hs, Hn.
  f_equal. destruct (side_to_move pos); simpl; lia.
Qed.

(** C6: beyond the clamp the mirror symmetry is lost.  For a position and
    its colour-and-rank mirror, neither in check, whose network outputs are
    opposite and larger than 30000 in size, the values of [evaluate] less
    the tempo are not opposite, whichever side is to move in either. *)
Theorem mirror_symmetry_fails_beyond_clamp
  (pos pos' : Position) (m m' : Memory) :
  checkers pos = 0%Z -> checkers pos' = 0%Z ->
  Board.mirrored (piece_on pos) (piece_on pos') ->
  nnue_output pos' = (- nnue_output pos)%Z ->
  (30000 < Z.abs (nnue_output pos))%Z ->
  exists x x' : Z,
    evaluate pos m = Returned x m /\ evaluate pos' m' = Returned x' m'
    /\ (x' - Tempo <> - (x - Tempo))%Z.
Proof.
  intros Hc Hc' _ Hn Hb. do 2 eexists.
  split; [unfold evaluate; apply value_not_in_check, Hc|].
  split; [unfold evaluate; apply value_not_in_check, Hc'|].
  rewrite Hn. destruct (side_to_move pos), (side_to_move pos'); lia.
Qed.

End mirror_facts.

(** ** The results on the concrete boards *)

Import Example.

Example hanging_queen_not_in_check : @checkers sample hanging_queen = 0%Z.
Proof. vm_compute. reflexivity. Qed.

Example hanging_queen_is_hanging :
  Board.hanging_queen_attacked_by_rook (@piece_on sample hanging_queen) WHITE
  = true.
Proof. vm_compute. reflexivity. Qed.

Example in_check_checkers :
  @checkers sample in_check = Z.shiftl 1 62.
Proof. vm_compute. reflexivity. Qed.

Example evaluate_hanging_queen :
  @evaluate sample hanging_queen sample_memory = Returned 840%Z sample_memory.
Proof. reflexivity. Qed.

Example evaluate_losing :
  @evaluate sample losing sample_memory = Returned (-29973)%Z sample_memory.
Proof. reflexivity. Qed.

Example evaluate_winning :
  @evaluate sample winning sample_memory = Returned 30028%Z sample_memory.
Proof. reflexivity. Qed.

Example evaluate_winning_mirror :
  @evaluate sample winning_mirror sample_memory
  = Returned (-39972)%Z sample_memory.
Proof. reflexivity. Qed.

Example evaluate_in_check_aborts :
  @evaluate sample in_check sample_memory = Aborted.
Proof. reflexivity. Qed.

Example add_threat_entry :
  exists m',
    @add sample THREAT WHITE (Tables.entry Tables.ThreatByRook QUEEN)
         clean_memory = Returned tt m'
    /\ score_at (scores m') THREAT WHITE = make_score 58 41.
Proof. eexists. split; reflexivity. Qed.

Example threats_row_after_trace :
  @show_Term sample zeroed_scores THREAT
  = " 0.00  0.00 |  0.00  0.00 |  0.00  0.00" +:+ nl.
Proof. vm_compute. reflexivity. Qed.

Example material_row_after_trace :
  @show_Term sample zeroed_scores MATERIAL
  = " ----  ---- |  ----  ---- |  0.00  0.00" +:+ nl.
Proof. vm_compute. reflexivity. Qed.

Lemma evaluate_reorients_and_adds_tempo_witness :
  @checkers sample hanging_queen = 0%Z
  /\ @evaluate sample hanging_queen sample_memory
     = Returned (812 + 28)%Z sample_memory.
Proof.
  split; [vm_compute; reflexivity|].
  apply (@evaluate_reorients_and_adds_tempo sample hanging_queen sample_memory).
  vm_compute. reflexivity.
Defined.

Lemma evaluate_total_when_not_in_check_witness :
  @checkers sample same_output = 0%Z
  /\ exists x : Z,
       @evaluate sample same_output clean_memory = Returned x clean_memory.
Proof.
  split; [vm_compute; reflexivity|].
  apply (@evaluate_total_when_not_in_check sample same_output clean_memory).
  vm_compute. reflexivity.
Defined.

Lemma evaluate_noninterference_witness :
  @checkers sample hanging_queen = 0%Z
  /\ @checkers sample same_output = 0%Z
  /\ @piece_on sample hanging_queen 0 <> @piece_on sample same_output 0
  /\ exists x : Z,
       @evaluate sample hanging_queen sample_memory = Returned x sample_memory
       /\ @evaluate sample same_output clean_memory = Returned x clean_memory.
Proof.
  split; [vm_compute; reflexivity|].
  split; [vm_compute; reflexivity|].
  split; [vm_compute; discriminate|].
  apply (@evaluate_noninterference sample hanging_queen same_output);
    vm_compute; reflexivity.
Defined.

Lemma evaluate_exceeds_bound_below_witness :
  @checkers sample losing = 0%Z
  /\ (@nnue_output sample losing < -30000)%Z
  /\ exists x : Z,
       @evaluate sample losing sample_memory = Returned x sample_memory
       /\ (30000 < Z.abs (x - 28))%Z.
Proof.
  split; [vm_compute; reflexivity|].
  split; [vm_compute; reflexivity|].
  apply (@evaluate_exceeds_bound_below sample losing sample_memory);
    vm_compute; reflexivity.
Defined.

Lemma trace_in_check_returns_literal_witness :
  @checkers sample in_check <> 0%Z
  /\ @trace sample in_check sample_memory
     = Returned "Total evaluation: none (in check)" sample_memory.
Proof.
  assert (Hc : @checkers sample in_check <> 0%Z)
    by (vm_compute; discriminate).
  split; [exact Hc|].
  exact (@trace_in_check_returns_literal sample in_check sample_memory Hc).
Defined.

Lemma trace_reports_zero_terms_witness :
  @checkers sample hanging_queen = 0%Z
  /\ score_at (@scores sample sample_memory) THREAT WHITE = make_score 58 41
  /\ exists m' : @Memory sample,
       @trace sample hanging_queen sample_memory
       = Returned
         ("     Term    |    White    |    Black    |    Total   " +:+ nl +:+
          "             |   MG    EG  |   MG    EG  |   MG    EG " +:+ nl +:+
          " ------------+-------------+-------------+------------" +:+ nl +:+
          "    Material |  ----  ---- |  ----  ---- |  0.00  0.00" +:+ nl +:+
          "   Imbalance |  ----  ---- |  ----  ---- |  0.00  0.00" +:+ nl +:+
          "       Pawns |  0.00  0.00 |  0.00  0.00 |  0.00  0.00" +:+ nl +:+
          "     Knights |  0.00  0.00 |  0.00  0.00 |  0.00  0.00" +:+ nl +:+
          "     Bishops |  0.00  0.00 |  0.00  0.00 |  0.00  0.00" +:+ nl +:+
          "       Rooks |  0.00  0.00 |  0.00  0.00 |  0.00  0.00" +:+ nl +:+
          "      Queens |  0.00  0.00 |  0.00  0.00 |  0.00  0.00" +:+ nl +:+
          "    Mobility |  0.00  0.00 |  0.00  0.00 |  0.00  0.00" +:+ nl +:+
          " King safety |  0.00  0.00 |  0.00  0.00 |  0.00  0.00" +:+ nl +:+
          "     Threats |  0.00  0.00 |  0.00  0.00 |  0.00  0.00" +:+ nl +:+
          "      Passed |  0.00  0.00 |  0.00  0.00 |  0.00  0.00" +:+ nl +:+
          "       Space |  0.00  0.00 |  0.00  0.00 |  0.00  0.00" +:+ nl +:+
          "    Winnable |  ----  ---- |  ----  ---- |  0.00  0.00" +:+ nl +:+
          " ------------+-------------+-------------+------------" +:+ nl +:+
          "       Total |  ----  ---- |  ----  ---- |  0.00  0.00" +:+ nl +:+
          "" +:+ nl +:+
          "Final evaluation: 4.04 (white side)" +:+ nl)
         m'
       /\ forall idx c, score_at (scores m') idx c = SCORE_ZERO.
Proof.
  split; [vm_compute; reflexivity|].
  split; [vm_compute; reflexivity|].
  destruct (@trace_reports_zero_terms sample hanging_queen sample_memory)
    as (text & m' & Ht & _ & Hz & Hspelled & _); [vm_compute; reflexivity|].
  exists m'. split; [|exact Hz].
  rewrite Ht. f_equal.
  etransitivity; [exact Hspelled|]. vm_compute. reflexivity.
Defined.

Lemma evaluate_and_trace_frame_witness :
  @checkers sample hanging_queen = 0%Z
  /\ Samples.contempt_probe hanging_queen sample_memory
     = Returned 12%Z sample_memory
  /\ @trace_calling sample Samples.contempt_probe hanging_queen sample_memory
     = Returned (@report sample zeroed_scores 0)
                (@traced_memory sample hanging_queen sample_memory)
  /\ (exists text,
        @trace sample hanging_queen sample_memory
        = Returned text (@traced_memory sample hanging_queen sample_memory))
  /\ @threads sample (@traced_memory sample hanging_queen sample_memory) !! 1
     = @threads sample sample_memory !! 1
  /\ @threads sample (@traced_memory sample hanging_queen sample_memory) !! 0
     = Some (@mkThread sample SCORE_ZERO 1000%Z).
Proof.
  split; [vm_compute; reflexivity|].
  destruct (@evaluate_and_trace_frame sample hanging_queen sample_memory)
    as (_ & _ & _ & Hcall & _ & _ & Ht & _ & Hothers & Hthis);
    [vm_compute; reflexivity|].
  split; [reflexivity|].
  split; [etransitivity; [exact (Hcall Samples.contempt_probe) | reflexivity]|].
  split; [exact Ht|].
  split; [apply Hothers; discriminate|].
  etransitivity; [exact Hthis | reflexivity].
Defined.



Lemma mirror_symmetry_fails_beyond_clamp_witness :
  @checkers sample winning = 0%Z
  /\ @checkers sample winning_mirror = 0%Z
  /\ Board.mirrored (@piece_on sample winning) (@piece_on sample winning_mirror)
  /\ @nnue_output sample winning_mirror = (- @nnue_output sample winning)%Z
  /\ exists x x' : Z,
       @evaluate sample winning sample_memory = Returned x sample_memory
       /\ @evaluate sample winning_mirror sample_memory
          = Returned x' sample_memory
       /\ (x' - 28 <> - (x - 28))%Z.
Proof.
  assert (Hm : Board.mirrored (@piece_on sample winning)
                              (@piece_on sample winning_mirror))
    by (apply mirroredb_sound; vm_compute; reflexivity).
  split; [vm_compute; reflexivity|].
  split; [vm_compute; reflexivity|].
  split; [exact Hm|].
  split; [reflexivity|].
  apply (@mirror_symmetry_fails_beyond_clamp sample winning winning_mirror);
    [vm_compute; reflexivity | vm_compute; reflexivity | exact Hm
    | reflexivity | vm_compute; reflexivity].
Defined.

(** * Further properties *)

(** ** [Trace::add] *)

Section add_facts.
Context `{Externals}.

Lemma color_index_lt (c : Color) : color_index c < COLOR_NB.
Proof. destruct c; unfold COLOR_NB; simpl; lia. Qed.

Lemma color_index_inj (c c' : Color) : color_index c = color_index c' -> c = c'.
Proof. destruct c, c'; simpl; congruence. Qed.

Lemma table_shaped_row (t : list (list Score)) (idx : nat) :
  table_shaped t -> idx < TERM_NB ->
  exists row, t !! idx = Some row /\ length row = COLOR_NB.
Proof.
  intros [Hlen Hrows] Hidx.
  destruct (lookup_lt_is_Some_2 t idx) as [row Hrow]; [lia|].
  exists row. split; [exact Hrow|].
  exact (Forall_lookup_1 _ _ _ _ Hrows Hrow).
Qed.

Lemma table_shaped_zeroed : table_shaped zeroed_scores.
Proof.
  split; [reflexivity|]. unfold zeroed_scores.
  apply Forall_replicate. reflexivity.
Qed.

Lemma table_shaped_alter (t : list (list Score)) (idx : nat) (c : Color)
  (s : Score) :
  table_shaped t -> table_shaped (alter (<[color_index c := s]>) idx t).
Proof.
  intros [Hlen Hrows]. split.
  - rewrite length_alter. exact Hlen.
  - apply Forall_alter; [exact Hrows|].
    intros row _ Hrow. rewrite length_insert. exact Hrow.
Qed.

(** Reading a cell of a table in which another cell was written. *)
Lemma score_at_alter_other (t : list (list Score)) (idx idx' : nat)
  (c c' : Color) (s : Score) :
  (idx', c') <> (idx, c) ->
  score_at (alter (<[color_index c := s]>) idx t) idx' c' = score_at t idx' c'.
Proof.
  intros Hne. unfold score_at.
  destruct (decide (idx' = idx)) as [->|Hidx].
  - rewrite list_lookup_alter_eq.
    destruct (t !! idx) as [row|]; simpl; [|reflexivity].
    rewrite list_lookup_insert_ne; [reflexivity|].
    intros Hc. apply color_index_inj in Hc. congruence.
  - rewrite list_lookup_alter_ne by congruence. reflexivity.
Qed.

Lemma score_at_alter_same (t : list (list Score)) (idx : nat) (c : Color)
  (s : Score) :
  table_shaped t -> idx < TERM_NB ->
  score_at (alter (<[color_index c := s]>) idx t) idx c = s.
Proof.
  intros Ht Hidx.
  destruct (table_shaped_row t idx Ht Hidx) as (row & Hrow & Hlen).
  unfold score_at. rewrite list_lookup_alter_eq, Hrow. simpl.
  rewrite list_lookup_insert_eq; [reflexivity|].
  rewrite Hlen. apply color_index_lt.
Qed.

(** X1: what [add(idx, c, s)] stores in a cell of the table is what is
    read back from it, for every term index below [TERM_NB] and both
    colours. *)
Theorem add_read_back (idx : nat) (c : Color) (s : Score) (m : Memory) :
  table_shaped (scores m) -> idx < TERM_NB ->
  exists m' : Memory,
    add idx c s m = Returned tt m' /\ score_at (scores m') idx c = s.
Proof.
  intros Ht Hidx. eexists. split; [reflexivity|].
  simpl. apply score_at_alter_same; assumption.
Qed.

(** X2: [add(idx, c, s)] writes one cell only: every other cell of the
    table reads as before and the threads are untouched. *)
Theorem add_frame (idx idx' : nat) (c c' : Color) (s : Score) (m : Memory) :
  idx < TERM_NB -> idx' < TERM_NB ->
  (idx', c') <> (idx, c) ->
  exists m' : Memory,
    add idx c s m = Returned tt m'
    /\ score_at (scores m') idx' c' = score_at (scores m) idx' c'
    /\ threads m' = threads m.
Proof.
  intros _ _ Hne. eexists. split; [reflexivity|]. split; [|reflexivity].
  simpl. apply score_at_alter_other, Hne.
Qed.

(** X3: despite its name [add] assigns: a second [add] to the same cell
    replaces what the first stored, nothing is accumulated. *)
Theorem add_overwrites (idx : nat) (c : Color) (s1 s2 : Score) (m : Memory) :
  idx < TERM_NB ->
  (add idx c s1 ;;; add idx c s2) m = add idx c s2 m.
Proof.
  intros _. unfold add, bind, get_scores, put_scores. simpl. do 2 f_equal.
  rewrite list_alter_alter_eq. apply list_alter_ext; [|reflexivity].
  intros row _. simpl. apply list_insert_insert_eq.
Qed.

(** X4: two [add]s to different cells can be done in either order. *)
Theorem add_commutes (idx idx' : nat) (c c' : Color) (s s' : Score)
  (m : Memory) :
  idx < TERM_NB -> idx' < TERM_NB ->
  (idx', c') <> (idx, c) ->
  (add idx c s ;;; add idx' c' s') m = (add idx' c' s' ;;; add idx c s) m.
Proof.
  intros _ _ Hne. unfold add, bind, get_scores, put_scores. simpl. do 2 f_equal.
  destruct (decide (idx' = idx)) as [->|Hidx].
  - rewrite !list_alter_alter_eq. apply list_alter_ext; [|reflexivity].
    intros row _. simpl. apply list_insert_insert_ne.
    intros Hc. apply color_index_inj in Hc. congruence.
  - apply list_alter_alter_ne. exact Hidx.
Qed.

(** X5: [add(idx, w, b)] stores [w] for White and [b] for Black in row
    [idx], leaves every other row as it was and does not touch the threads;
    with the default [b = SCORE_ZERO] Black's cell is reset to zero. *)
Theorem add_pair_read_back (idx : nat) (w b : Score) (m : Memory) :
  table_shaped (scores m) -> idx < TERM_NB ->
  exists m' : Memory,
    add_pair idx w b m = Returned tt m'
    /\ score_at (scores m') idx WHITE = w
    /\ score_at (scores m') idx BLACK = b
    /\ (forall idx' c', idx' <> idx ->
          score_at (scores m') idx' c' = score_at (scores m) idx' c')
    /\ threads m' = threads m.
Proof.
  intros Ht Hidx. eexists. split; [reflexivity|]. cbn [scores threads].
  split; [|split; [|split; [|reflexivity]]].
  - rewrite score_at_alter_other by congruence.
    apply score_at_alter_same; assumption.
  - apply score_at_alter_same; [apply table_shaped_alter, Ht | exact Hidx].
  - intros idx' c' Hne. rewrite !score_at_alter_other by congruence.
    reflexivity.
Qed.

(** [add] keeps the table's shape: [TERM_NB] rows of [COLOR_NB] cells
    before, the same after. *)
Theorem add_preserves_shape (idx : nat) (c : Color) (s : Score) (m : Memory) :
  table_shaped (scores m) -> idx < TERM_NB ->
  exists m' : Memory,
    add idx c s m = Returned tt m' /\ table_shaped (scores m').
Proof.
  intros Ht _. eexists. split; [reflexivity|].
  simpl. apply table_shaped_alter, Ht.
Qed.

End add_facts.

(** ** The rows of the report *)

Section report_facts.
Context `{Externals}.

(** A row is determined by the two cells of its term. *)
Lemma show_Term_local (t t' : list (list Score)) (idx : nat) :
  (forall c, score_at t idx c = score_at t' idx c) ->
  show_Term t idx = show_Term t' idx.
Proof. intros Hc. unfold show_Term. rewrite !Hc. reflexivity. Qed.

(** X6: after [add(idx, w, b)] the row that [operator<<] prints for the
    term [idx] shows [w], [b] and [w - b]; for material, imbalance, winnable
    and total the two sides are dashed out and only [w - b] is shown. *)
Theorem add_pair_then_show_Term (idx : nat) (w b : Score) (m : Memory) :
  table_shaped (scores m) -> idx < TERM_NB ->
  exists m' : Memory,
    add_pair idx w b m = Returned tt m'
    /\ show_Term (scores m') idx =
       (if bool_decide (idx = MATERIAL \/ idx = IMBALANCE \/
                        idx = WINNABLE \/ idx = TOTAL)
        then " ----  ----" +:+ " | " +:+ " ----  ----"
        else show_Score w +:+ " | " +:+ show_Score b)
       +:+ " | " +:+ show_Score (score_sub w b) +:+ nl.
Proof.
  intros Ht Hidx. eexists. split; [reflexivity|]. cbn [scores].
  unfold show_Term.
  rewrite (score_at_alter_other _ idx idx BLACK WHITE) by congruence.
  rewrite !score_at_alter_same;
    [reflexivity | apply table_shaped_alter, Ht | exact Hidx
    | exact Ht | exact Hidx].
Qed.

(** X7: an [add] to one term leaves the row of every other term as it
    was printed before. *)
Theorem show_Term_after_other_add (idx idx' : nat) (c : Color) (s : Score)
  (m : Memory) :
  idx < TERM_NB -> idx' < TERM_NB -> idx' <> idx ->
  exists m' : Memory,
    add idx' c s m = Returned tt m'
    /\ show_Term (scores m') idx = show_Term (scores m) idx.
Proof.
  intros _ _ Hne. eexists. split; [reflexivity|]. cbn [scores].
  apply show_Term_local. intros c'.
  apply score_at_alter_other. congruence.
Qed.

(** X8: the report reads the table inside its bounds only: two tables that
    agree on the cells of the indices below [TERM_NB] give the same text. *)
Theorem report_reads_within_bounds (t t' : list (list Score)) (v : Z) :
  (forall idx c, idx < TERM_NB -> score_at t idx c = score_at t' idx c) ->
  report t v = report t' v.
Proof.
  intros Hin.
  assert (Hrow : forall idx, idx < TERM_NB -> show_Term t idx = show_Term t' idx).
  { intros idx Hidx. apply show_Term_local. intros c. apply Hin, Hidx. }
  unfold report.
  rewrite (Hrow MATERIAL), (Hrow IMBALANCE), (Hrow (Term_of PAWN)),
    (Hrow (Term_of KNIGHT)), (Hrow (Term_of BISHOP)), (Hrow (Term_of ROOK)),
    (Hrow (Term_of QUEEN)), (Hrow MOBILITY), (Hrow (Term_of KING)),
    (Hrow THREAT), (Hrow PASSED), (Hrow SPACE), (Hrow WINNABLE),
    (Hrow TOTAL) by (compute; lia).
  reflexivity.
Qed.

End report_facts.

(** ** More on [Eval::trace] *)

Section more_trace_facts.
Context `{Externals}.

Lemma traced_memory_idempotent (pos : Position) (m : Memory) :
  traced_memory pos (traced_memory pos m) = traced_memory pos m.
Proof.
  unfold traced_memory. cbn [threads]. f_equal.
  apply map_eq. intros p.
  destruct (decide (p = this_thread pos)) as [->|Hp].
  - rewrite !lookup_alter_eq.
    destruct (threads m !! this_thread pos); reflexivity.
  - rewrite !lookup_alter_ne by congruence. reflexivity.
Qed.

(** X9: [trace] always returns a text, in both build modes and for every
    position: when it reaches the assertion of [value] it has already
    returned on a position in check. *)
Theorem trace_never_aborts (pos : Position) (m : Memory) :
  exists (text : string) (m' : Memory), trace pos m = Returned text m'.
Proof.
  destruct (checkers pos =? 0)%Z eqn:Hc.
  - apply Z.eqb_eq in Hc. do 2 eexists. apply trace_not_in_check, Hc.
  - unfold trace, trace_calling. rewrite Hc. do 2 eexists. reflexivity.
Qed.

(** X10: the text [trace] returns depends on the position alone: whatever
    earlier [add]s left in the table and whatever the threads hold, the
    same text comes back. *)
Theorem trace_text_independent_of_memory (pos : Position) (m1 m2 : Memory) :
  returned_value (trace pos m1) = returned_value (trace pos m2).
Proof.
  destruct (checkers pos =? 0)%Z eqn:Hc.
  - apply Z.eqb_eq in Hc. rewrite !trace_not_in_check by exact Hc.
    reflexivity.
  - unfold trace, trace_calling. rewrite Hc. reflexivity.
Qed.

(** X11: running [trace] again on the memory it left returns the same text
    and leaves that memory unchanged. *)
Theorem trace_idempotent (pos : Position) (m m' : Memory) (text : string) :
  trace pos m = Returned text m' -> trace pos m' = Returned text m'.
Proof.
  destruct (checkers pos =? 0)%Z eqn:Hc.
  - apply Z.eqb_eq in Hc. rewrite !trace_not_in_check by exact Hc.
    intros Hr. injection Hr as <- <-.
    rewrite traced_memory_idempotent. reflexivity.
  - unfold trace, trace_calling. rewrite Hc. simpl. unfold ret.
    intros Hr. injection Hr as <- <-. reflexivity.
Qed.

(** X12: the text [trace] returns ends with the line of the final
    evaluation, and the value on it is the value of [evaluate] seen from
    White's side: [x] itself when White is to move, [-x] when Black is.
    [evaluate] returns the same [x] after [trace] as before. *)
Theorem trace_shows_evaluate (pos : Position) (m : Memory) :
  checkers pos = 0%Z ->
  let eol := String (Ascii.ascii_of_nat 10) EmptyString in
  exists (x : Z) (m' : Memory) (rows : string),
    evaluate pos m = Returned x m
    /\ trace pos m =
       Returned
         (rows +:+ eol +:+ "Final evaluation: " +:+
          show_double 0
            (double_div
               (double_of_Value
                  (match side_to_move pos with WHITE => x | BLACK => - x end)%Z)
               (double_of_Value PawnValueEg))
          +:+ " (white side)" +:+ eol)
         m'
    /\ trace pos m =
       Returned (report zeroed_scores
                   (match side_to_move pos with WHITE => x | BLACK => - x end)%Z)
                m'
    /\ evaluate pos m' = Returned x m'.
Proof.
  intros Hc eol.
  destruct (report_final_line zeroed_scores
              (match side_to_move pos with
               | WHITE => Z.min (nnue_output pos) 30000 + Tempo
               | BLACK => - (- Z.min (nnue_output pos) 30000 + Tempo)
               end)%Z) as [rows Hrows].
  eexists. exists (traced_memory pos m), rows.
  split; [unfold evaluate; apply value_not_in_check, Hc|].
  rewrite trace_not_in_check by exact Hc.
  split; [|split; [|unfold evaluate; apply value_not_in_check, Hc]].
  - rewrite Hrows. destruct (side_to_move pos); reflexivity.
  - destruct (side_to_move pos); reflexivity.
Qed.

End more_trace_facts.

(** ** More on [Eval::evaluate] *)

Section more_evaluate_facts.
Context `{Externals}.

(** X13: on a position in check [evaluate] is stopped by the assertion
    when assertions are enabled; with [NDEBUG] nothing guards the
    computation and the same formula is returned as out of check. *)
Theorem evaluate_in_check (pos : Position) (m : Memory) :
  checkers pos <> 0%Z ->
  evaluate pos m =
  if NDEBUG
  then Returned ((match side_to_move pos with
                  | WHITE => Z.min (nnue_output pos) 30000
                  | BLACK => - Z.min (nnue_output pos) 30000
                  end) + Tempo)%Z m
  else Aborted.
Proof.
  intros Hc. apply Z.eqb_neq in Hc.
  unfold evaluate, value, bind, assert. rewrite Hc.
  destruct NDEBUG; reflexivity.
Qed.

(** X16: above the clamp the network output no longer matters: two
    positions with the same side to move and outputs of at least 30000
    get the same value. *)
Theorem evaluate_saturates (pos1 pos2 : Position) (m1 m2 : Memory) :
  checkers pos1 = 0%Z -> checkers pos2 = 0%Z ->
  side_to_move pos1 = side_to_move pos2 ->
  (30000 <= nnue_output pos1)%Z -> (30000 <= nnue_output pos2)%Z ->
  exists x : Z,
    evaluate pos1 m1 = Returned x m1 /\ evaluate pos2 m2 = Returned x m2.
Proof.
  intros Hc1 Hc2 Hs Hn1 Hn2. eexists.
  split; [unfold evaluate; apply value_not_in_check, Hc1|].
  unfold evaluate. rewrite (value_not_in_check _ _ _ Hc2), Hs.
  f_equal. destruct (side_to_move pos2); lia.
Qed.

(** X17: the value follows the network output: with White to move a larger
    output never gives a smaller value, with Black to move never a larger
    one. *)
Theorem evaluate_monotone (pos1 pos2 : Position) (m1 m2 : Memory) :
  checkers pos1 = 0%Z -> checkers pos2 = 0%Z ->
  side_to_move pos1 = side_to_move pos2 ->
  (nnue_output pos1 <= nnue_output pos2)%Z ->
  exists x1 x2 : Z,
    evaluate pos1 m1 = Returned x1 m1 /\ evaluate pos2 m2 = Returned x2 m2
    /\ match side_to_move pos1 with
       | WHITE => (x1 <= x2)%Z
       | BLACK => (x2 <= x1)%Z
       end.
Proof.
  intros Hc1 Hc2 Hs Hn. do 2 eexists.
  split; [unfold evaluate; apply value_not_in_check, Hc1|].
  split; [unfold evaluate; apply value_not_in_check, Hc2|].
  rewrite <- Hs. destruct (side_to_move pos1); lia.
Qed.

(** X18: the same network output seen by the two sides: the value with
    White to move and the value with Black to move add up to twice the
    tempo. *)
Theorem evaluate_sides_add_up (pos1 pos2 : Position) (m1 m2 : Memory) :
  checkers pos1 = 0%Z -> checkers pos2 = 0%Z ->
  side_to_move pos2 = flip_color (side_to_move pos1) ->
  nnue_output pos1 = nnue_output pos2 ->
  exists x1 x2 : Z,
    evaluate pos1 m1 = Returned x1 m1 /\ evaluate pos2 m2 = Returned x2 m2
    /\ (x1 + x2 = 2 * Tempo)%Z.
Proof.
  intros Hc1 Hc2 Hs Hn. do 2 eexists.
  split; [unfold evaluate; apply value_not_in_check, Hc1|].
  split; [unfold evaluate; apply value_not_in_check, Hc2|].
  rewrite Hs, Hn. destruct (side_to_move pos1); simpl; lia.
Qed.

End more_evaluate_facts.

(** ** The safe-check weights *)

(** X21: as the comment on [SafeCheck] says, for each of knight, bishop,
    rook and queen the weight for several safe checks is higher than the
    weight for a single one. *)
Theorem SafeCheck_multiple_is_higher (pt : PieceType) :
  pt <> PAWN -> pt <> KING ->
  exists single multiple : Z,
    Weights.safe_check pt 0 = Some single
    /\ Weights.safe_check pt 1 = Some multiple
    /\ (0 < single < multiple)%Z.
Proof.
  intros Hp Hk. destruct pt; try congruence;
    do 2 eexists; (split; [reflexivity|]); (split; [reflexivity|]); lia.
Qed.

(** ** These properties on the concrete boards *)

Import Samples.

Lemma add_read_back_witness :
  table_shaped (@scores sample sample_memory)
  /\ THREAT < TERM_NB
  /\ exists m' : @Memory sample,
       @add sample THREAT BLACK (make_score 37 68) sample_memory
       = Returned tt m'
       /\ score_at (scores m') THREAT BLACK = make_score 37 68.
Proof.
  assert (Hs : table_shaped (@scores sample sample_memory))
    by (split; [reflexivity | repeat constructor]).
  assert (Hi : THREAT < TERM_NB) by (compute; lia).
  split; [exact Hs|]. split; [exact Hi|].
  exact (@add_read_back sample THREAT BLACK (make_score 37 68)
           sample_memory Hs Hi).
Defined.

Lemma add_frame_witness :
  THREAT < TERM_NB
  /\ (THREAT, WHITE) <> (THREAT, BLACK)
  /\ exists m' : @Memory sample,
       @add sample THREAT BLACK (make_score 37 68) sample_memory
       = Returned tt m'
       /\ score_at (scores m') THREAT WHITE
          = score_at (@scores sample sample_memory) THREAT WHITE
       /\ threads m' = threads sample_memory.
Proof.
  assert (Hne : (THREAT, WHITE) <> (THREAT, BLACK)) by discriminate.
  assert (Hi : THREAT < TERM_NB) by (compute; lia).
  split; [exact Hi|]. split; [exact Hne|].
  exact (@add_frame sample THREAT THREAT BLACK WHITE (make_score 37 68)
           sample_memory Hi Hi Hne).
Defined.

Lemma add_commutes_witness :
  THREAT < TERM_NB /\ MOBILITY < TERM_NB
  /\ (MOBILITY, WHITE) <> (THREAT, BLACK)
  /\ (@add sample THREAT BLACK (make_score 37 68)
      ;;; @add sample MOBILITY WHITE (make_score 3 5)) sample_memory
     = (@add sample MOBILITY WHITE (make_score 3 5)
        ;;; @add sample THREAT BLACK (make_score 37 68)) sample_memory.
Proof.
  assert (Hne : (MOBILITY, WHITE) <> (THREAT, BLACK)) by discriminate.
  assert (Hi : THREAT < TERM_NB) by (compute; lia).
  assert (Hj : MOBILITY < TERM_NB) by (compute; lia).
  split; [exact Hi|]. split; [exact Hj|]. split; [exact Hne|].
  exact (@add_commutes sample THREAT MOBILITY BLACK WHITE (make_score 37 68)
           (make_score 3 5) sample_memory Hi Hj Hne).
Defined.

Lemma add_pair_read_back_witness :
  table_shaped (@scores sample sample_memory)
  /\ THREAT < TERM_NB
  /\ exists m' : @Memory sample,
       @add_pair sample THREAT (make_score 5 6) SCORE_ZERO sample_memory
       = Returned tt m'
       /\ score_at (scores m') THREAT WHITE = make_score 5 6
       /\ score_at (scores m') THREAT BLACK = SCORE_ZERO.
Proof.
  assert (Hs : table_shaped (@scores sample sample_memory))
    by (split; [reflexivity | repeat constructor]).
  assert (Hi : THREAT < TERM_NB) by (compute; lia).
  split; [exact Hs|]. split; [exact Hi|].
  destruct (@add_pair_read_back sample THREAT (make_score 5 6) SCORE_ZERO
              sample_memory Hs Hi) as (m' & Hr & Hw & Hb & _).
  exists m'. split; [exact Hr|]. split; [exact Hw | exact Hb].
Defined.

Lemma add_preserves_shape_witness :
  table_shaped (@scores sample sample_memory)
  /\ TOTAL < TERM_NB
  /\ exists m' : @Memory sample,
       @add sample TOTAL WHITE (make_score 1 1) sample_memory = Returned tt m'
       /\ table_shaped (scores m').
Proof.
  assert (Hs : table_shaped (@scores sample sample_memory))
    by (split; [reflexivity | repeat constructor]).
  assert (Hi : TOTAL < TERM_NB) by (compute; lia).
  split; [exact Hs|]. split; [exact Hi|].
  exact (@add_preserves_shape sample TOTAL WHITE (make_score 1 1)
           sample_memory Hs Hi).
Defined.

Lemma add_overwrites_witness :
  THREAT < TERM_NB
  /\ (@add sample THREAT WHITE (make_score 58 41)
      ;;; @add sample THREAT WHITE (make_score 3 46)) clean_memory
     = @add sample THREAT WHITE (make_score 3 46) clean_memory.
Proof.
  assert (Hi : THREAT < TERM_NB) by (compute; lia).
  split; [exact Hi|].
  exact (@add_overwrites sample THREAT WHITE (make_score 58 41)
           (make_score 3 46) clean_memory Hi).
Defined.

Lemma add_pair_then_show_Term_witness :
  table_shaped (@scores sample sample_memory)
  /\ THREAT < TERM_NB
  /\ exists m' : @Memory sample,
       @add_pair sample THREAT (make_score 58 41) (make_score 3 46)
         sample_memory = Returned tt m'
       /\ @show_Term sample (scores m') THREAT
          = " 0.28  0.20 |  0.01  0.22 |  0.26 -0.02" +:+ nl.
Proof.
  assert (Hs : table_shaped (@scores sample sample_memory))
    by (split; [reflexivity | repeat constructor]).
  assert (Hi : THREAT < TERM_NB) by (compute; lia).
  split; [exact Hs|]. split; [exact Hi|].
  destruct (@add_pair_then_show_Term sample THREAT (make_score 58 41)
              (make_score 3 46) sample_memory Hs Hi) as (m' & Hr & Hrow).
  exists m'. split; [exact Hr|].
  etransitivity; [exact Hrow|]. vm_compute. reflexivity.
Defined.

Lemma show_Term_after_other_add_witness :
  THREAT < TERM_NB /\ MOBILITY < TERM_NB /\ MOBILITY <> THREAT
  /\ exists m' : @Memory sample,
       @add sample MOBILITY WHITE (make_score 3 5) sample_memory
       = Returned tt m'
       /\ @show_Term sample (scores m') THREAT
          = @show_Term sample (@scores sample sample_memory) THREAT.
Proof.
  assert (Hi : THREAT < TERM_NB) by (compute; lia).
  assert (Hj : MOBILITY < TERM_NB) by (compute; lia).
  assert (Hne : MOBILITY <> THREAT) by discriminate.
  split; [exact Hi|]. split; [exact Hj|]. split; [exact Hne|].
  exact (@show_Term_after_other_add sample THREAT MOBILITY WHITE
           (make_score 3 5) sample_memory Hi Hj Hne).
Defined.

Lemma report_reads_within_bounds_witness :
  (forall idx c, idx < TERM_NB ->
     score_at (zeroed_scores ++ [[make_score 1 2; make_score 3 4]]) idx c
     = score_at zeroed_scores idx c)
  /\ @report sample (zeroed_scores ++ [[make_score 1 2; make_score 3 4]]) 840
     = @report sample zeroed_scores 840.
Proof.
  assert (Hin : forall idx c, idx < TERM_NB ->
     score_at (zeroed_scores ++ [[make_score 1 2; make_score 3 4]]) idx c
     = score_at zeroed_scores idx c).
  { intros idx c Hidx. unfold score_at.
    rewrite lookup_app_l by exact Hidx. reflexivity. }
  split; [exact Hin|].
  exact (@report_reads_within_bounds sample _ _ 840%Z Hin).
Defined.

Lemma trace_idempotent_witness :
  @trace sample hanging_queen sample_memory
  = Returned (@report sample zeroed_scores 840)
             (@traced_memory sample hanging_queen sample_memory)
  /\ @trace sample hanging_queen
       (@traced_memory sample hanging_queen sample_memory)
     = Returned (@report sample zeroed_scores 840)
                (@traced_memory sample hanging_queen sample_memory).
Proof.
  assert (Hr : @trace sample hanging_queen sample_memory
               = Returned (@report sample zeroed_scores 840)
                   (@traced_memory sample hanging_queen sample_memory))
    by (apply (@trace_not_in_check sample); vm_compute; reflexivity).
  split; [exact Hr|].
  exact (@trace_idempotent sample hanging_queen sample_memory _ _ Hr).
Defined.

Lemma trace_shows_evaluate_witness :
  @checkers sample black_to_move = 0%Z
  /\ @evaluate sample black_to_move sample_memory
     = Returned (-784)%Z sample_memory
  /\ exists (m' : @Memory sample) (rows : string),
       @trace sample black_to_move sample_memory
       = Returned (rows +:+ nl +:+ "Final evaluation: 3.77 (white side)"
                   +:+ nl) m'
       /\ @evaluate sample black_to_move m' = Returned (-784)%Z m'.
Proof.
  split; [vm_compute; reflexivity|].
  assert (Hev : @evaluate sample black_to_move sample_memory
                = Returned (-784)%Z sample_memory) by reflexivity.
  split; [exact Hev|].
  destruct (@trace_shows_evaluate sample black_to_move sample_memory)
    as (x & m' & rows & He & Ht & _ & He'); [vm_compute; reflexivity|].
  rewrite Hev in He. injection He as <-.
  exists m', rows. split; [|exact He'].
  rewrite Ht. apply (f_equal (fun t => Returned (rows +:+ t) m')).
  vm_compute. reflexivity.
Defined.

Lemma evaluate_in_check_witness :
  @checkers sample in_check <> 0%Z
  /\ @evaluate sample in_check sample_memory = Aborted
  /\ @evaluate release in_check (@mkMemory release zeroed_scores ∅)
     = Returned (-2500 + 28)%Z (@mkMemory release zeroed_scores ∅).
Proof.
  assert (Hc : @checkers sample in_check <> 0%Z)
    by (vm_compute; discriminate).
  split; [exact Hc|].
  split.
  - exact (@evaluate_in_check sample in_check sample_memory Hc).
  - exact (@evaluate_in_check release in_check
             (@mkMemory release zeroed_scores ∅) Hc).
Defined.

Lemma evaluate_one_sided_bound_witness :
  @checkers sample winning = 0%Z
  /\ exists x : Z,
       @evaluate sample winning sample_memory = Returned x sample_memory
       /\ (x - 28 <= 30000)%Z.
Proof.
  split; [vm_compute; reflexivity|].
  apply (@evaluate_one_sided_bound sample winning sample_memory).
  vm_compute. reflexivity.
Defined.

Lemma evaluate_bounded_from_witness :
  @checkers sample winning = 0%Z
  /\ (-30000 <= @nnue_output sample winning)%Z
  /\ exists x : Z,
       @evaluate sample winning sample_memory = Returned x sample_memory
       /\ (Z.abs (x - 28) <= 30000)%Z.
Proof.
  split; [vm_compute; reflexivity|].
  split; [vm_compute; discriminate|].
  apply (@evaluate_bounded_from sample winning sample_memory).
  - vm_compute. reflexivity.
  - vm_compute. discriminate.
Defined.

Lemma evaluate_saturates_witness :
  @checkers sample winning = 0%Z /\ @checkers sample saturated = 0%Z
  /\ (30000 <= @nnue_output sample winning)%Z
  /\ (30000 <= @nnue_output sample saturated)%Z
  /\ @nnue_output sample winning <> @nnue_output sample saturated
  /\ exists x : Z,
       @evaluate sample winning sample_memory = Returned x sample_memory
       /\ @evaluate sample saturated clean_memory = Returned x clean_memory.
Proof.
  split; [vm_compute; reflexivity|].
  split; [vm_compute; reflexivity|].
  split; [vm_compute; discriminate|].
  split; [vm_compute; discriminate|].
  split; [vm_compute; discriminate|].
  apply (@evaluate_saturates sample winning saturated);
    [vm_compute; reflexivity | vm_compute; reflexivity | reflexivity
    | vm_compute; discriminate | vm_compute; discriminate].
Defined.

Lemma evaluate_monotone_witness :
  @checkers sample hanging_queen = 0%Z /\ @checkers sample winning = 0%Z
  /\ (@nnue_output sample hanging_queen <= @nnue_output sample winning)%Z
  /\ exists x1 x2 : Z,
       @evaluate sample hanging_queen sample_memory = Returned x1 sample_memory
       /\ @evaluate sample winning sample_memory = Returned x2 sample_memory
       /\ (x1 <= x2)%Z.
Proof.
  split; [vm_compute; reflexivity|].
  split; [vm_compute; reflexivity|].
  split; [vm_compute; discriminate|].
  apply (@evaluate_monotone sample hanging_queen winning);
    [vm_compute; reflexivity | vm_compute; reflexivity | reflexivity
    | vm_compute; discriminate].
Defined.

Lemma evaluate_sides_add_up_witness :
  @checkers sample hanging_queen = 0%Z /\ @checkers sample black_to_move = 0%Z
  /\ exists x1 x2 : Z,
       @evaluate sample hanging_queen sample_memory = Returned x1 sample_memory
       /\ @evaluate sample black_to_move sample_memory
          = Returned x2 sample_memory
       /\ (x1 + x2 = 2 * 28)%Z.
Proof.
  split; [vm_compute; reflexivity|].
  split; [vm_compute; reflexivity|].
  apply (@evaluate_sides_add_up sample hanging_queen black_to_move);
    [vm_compute; reflexivity | vm_compute; reflexivity | reflexivity
    | reflexivity].
Defined.

Lemma mirror_symmetry_within_clamp_witness :
  @checkers sample hanging_queen = 0%Z
  /\ @checkers sample hanging_queen_mirror = 0%Z
  /\ Board.mirrored (@piece_on sample hanging_queen)
                    (@piece_on sample hanging_queen_mirror)
  /\ exists x x' : Z,
       @evaluate sample hanging_queen sample_memory = Returned x sample_memory
       /\ @evaluate sample hanging_queen_mirror sample_memory
          = Returned x' sample_memory
       /\ (x' - 28 = - (x - 28))%Z.
Proof.
  split; [vm_compute; reflexivity|].
  split; [vm_compute; reflexivity|].
  split; [apply mirroredb_sound; vm_compute; reflexivity|].
  apply (@mirror_symmetry_within_clamp sample hanging_queen
           hanging_queen_mirror);
    [vm_compute; reflexivity | vm_compute; reflexivity | reflexivity
    | reflexivity
    | split; vm_compute; discriminate].
Defined.

Lemma mirror_symmetry_side_exchanged_witness :
  @checkers sample hanging_queen = 0%Z
  /\ @checkers sample mirror_black_to_move = 0%Z
  /\ Board.mirrored (@piece_on sample hanging_queen)
                    (@piece_on sample mirror_black_to_move)
  /\ exists x : Z,
       @evaluate sample hanging_queen sample_memory = Returned x sample_memory
       /\ @evaluate sample mirror_black_to_move sample_memory
          = Returned x sample_memory.
Proof.
  split; [vm_compute; reflexivity|].
  split; [vm_compute; reflexivity|].
  split; [apply mirroredb_sound; vm_compute; reflexivity|].
  apply (@mirror_symmetry_side_exchanged sample hanging_queen
           mirror_black_to_move);
    [vm_compute; reflexivity | vm_compute; reflexivity | reflexivity
    | reflexivity
    | split; vm_compute; discriminate].
Defined.

Lemma SafeCheck_multiple_is_higher_witness :
  ROOK <> PAWN /\ ROOK <> KING
  /\ exists single multiple : Z,
       Weights.safe_check ROOK 0 = Some single
       /\ Weights.safe_check ROOK 1 = Some multiple
       /\ (0 < single < multiple)%Z.
Proof.
  assert (Hp : ROOK <> PAWN) by discriminate.
  assert (Hk : ROOK <> KING) by discriminate.
  split; [exact Hp|]. split; [exact Hk|].
  exact (SafeCheck_multiple_is_higher ROOK Hp Hk).
Defined.
